(** * The etcd Ansible module ([library/etcd.py]): a shallow embedding

    The module has one entry point, [main].  It reads the key from etcd,
    and then, depending on [state] ([present], [absent], [directory]), on
    the value read and on the flags [override], [recursive] and the check
    mode of Ansible, issues at most one mutating call of the python-etcd
    client and finishes through [module.exit_json] or [module.fail_json].

    The embedding keeps that shape.  The python-etcd client is a record of
    functions over an abstract store; every client call can raise; the
    dictionaries [results] and [data] are records whose optional keys are
    options; [main] is written in a small monad that threads the store and
    the list of mutating calls and stops at [exit_json], [fail_json] or an
    exception nobody catches. *)

From stdpp Require Import base option list strings gmap.

Open Scope string_scope.

(** ** Exceptions *)

(** The exceptions [main] can meet.  [EtcdKeyNotFound] and
    [ConnectionError] are the two it names in [except] clauses;
    [EtcdException] stands for any other exception of the client;
    [KeyError] and [TypeError] are raised by subscripting. *)
Inductive Exn : Type :=
| EtcdKeyNotFound
| ConnectionError
| EtcdException (what : string)
| KeyError (k : string)
| TypeError (what : string).

(** [str(e)]. *)
Definition str (e : Exn) : string :=
  match e with
  | EtcdKeyNotFound => "Key not found"
  | ConnectionError => "Connection error"
  | EtcdException what => what
  | KeyError k => "'" +:+ k +:+ "'"
  | TypeError what => what
  end.

(** ** What the client returns *)

(** One entry of [full_record._children]: a raw node of the reply. *)
Module Child.
Record t : Type := { key : string; value : option string; dir : bool }.
End Child.

(** [etcd.EtcdResult], with the attributes [main] reads. *)
Module EtcdResult.
Record t : Type :=
  { key : string;
    value : option string;
    dir : bool;
    _children : list Child.t }.
End EtcdResult.

(** The mutating calls of the client that [main] contains:
    [client.write(key, value, dir=...)] and
    [client.delete(key, recursive=..., dir=...)]. *)
Inductive Call : Type :=
| Write (key : string) (value : option string) (dir : bool)
| Delete (key : string) (recursive : bool) (dir : bool).

(** The client: a capability over a store.  A call either raises or
    answers.  [client.get] of python-etcd is [client.read] under another
    name, so one [read] serves both. *)
Record Client (store : Type) : Type :=
  { read : store -> string -> Exn + EtcdResult.t;
    write : store -> string -> option string -> bool -> Exn + store;
    delete : store -> string -> bool -> bool -> Exn + store }.

Arguments read {store} _ _ _.
Arguments write {store} _ _ _ _ _.
Arguments delete {store} _ _ _ _ _.

(** ** The module's input *)

Inductive State : Type := present | absent | directory.

#[export] Instance State_eq_dec : EqDecision State.
Proof. solve_decision. Defined.

(** [module.params], the parameters [main] branches on.  The connection
    parameters only reach the constructor of the client. *)
Module Params.
Record t : Type :=
  { state : State;
    api_version : string;
    key : string;
    value : option string;
    override : bool;
    recursive : bool }.
End Params.

Module AnsibleModule.
Record t : Type := { params : Params.t; check_mode : bool }.
End AnsibleModule.

(** ** The module's output *)

(** The dictionary [data]; [value] and [children] are keys that may be
    missing.  [children] is only ever bound to a dictionary. *)
Module Data.
Record t : Type :=
  { key : string;
    dir : bool;
    value : option (option string);
    children : option (gmap string Child.t) }.
End Data.

(** The dictionary [results]; [value] and [data] are keys that may be
    missing. *)
Module Results.
Record t : Type :=
  { changed : bool;
    key : string;
    dir : bool;
    value : option (option string);
    data : option Data.t }.

Definition set_changed (b : bool) (r : t) : t :=
  {| changed := b; key := key r; dir := dir r; value := value r; data := data r |}.

Definition set_dir (b : bool) (r : t) : t :=
  {| changed := changed r; key := key r; dir := b; value := value r; data := data r |}.
End Results.

(** How a run of the module ends. *)
Inductive Outcome : Type :=
| ExitJson (results : Results.t)
| FailJson (msg : string)
| Uncaught (e : Exn).

(** ** The monad of [main] *)

(** A world is the store together with the mutating calls issued so far,
    oldest first. *)
Record World (store : Type) : Type := { etcd : store; calls : list Call }.
Arguments etcd {store} _.
Arguments calls {store} _.

(** A computation either goes on with a value or stops the module. *)
Inductive Step (W A : Type) : Type :=
| Next (a : A) (w : W)
| Halt (o : Outcome) (w : W).
Arguments Next {W A} _ _.
Arguments Halt {W A} _ _.

Definition M (W A : Type) : Type := W -> Step W A.

#[export] Instance M_ret {W} : MRet (M W) :=
  fun A (a : A) w => Next a w.

#[export] Instance M_bind {W} : MBind (M W) :=
  fun A B (k : A -> M W B) (m : M W A) w =>
    match m w with
    | Next a w' => k a w'
    | Halt o w' => Halt o w'
    end.

(** [bind m k] runs [m] first; the notation names its result. *)
Definition bind {W A B} (m : M W A) (k : A -> M W B) : M W B := mbind k m.

Notation "'let*' x ':=' m 'in' k" := (bind m (fun x => k))
  (at level 10, x pattern, m at level 100, k at level 200, only parsing).

Definition exit_json {W A} (results : Results.t) : M W A :=
  fun w => Halt (ExitJson results) w.

Definition fail_json {W A} (msg : string) : M W A :=
  fun w => Halt (FailJson msg) w.

Definition raise {W A} (e : Exn) : M W A :=
  fun w => Halt (Uncaught e) w.

Definition when {W} (b : bool) (m : M W unit) : M W unit :=
  if b then m else mret tt.

(** ** The module *)

Section Module.
Context {store : Type} (client : Client store).

Local Abbreviation M := (M (World store)).

(** What a mutating call does to the store. *)
Definition perform (c : Call) (s : store) : Exn + store :=
  match c with
  | Write k v d => write client s k v d
  | Delete k r d => delete client s k r d
  end.

(** A mutating call inside [try]: the exception, if any, is handed to
    the [except] clauses. *)
Definition attempt (c : Call) : M (option Exn) :=
  fun w => match perform c (etcd w) with
           | inl e => Next (Some e) {| etcd := etcd w; calls := calls w ++ [c] |}
           | inr s => Next None {| etcd := s; calls := calls w ++ [c] |}
           end.

(** A mutating call outside [try]. *)
Definition call (c : Call) : M unit :=
  let* e := attempt c in
  match e with
  | Some e => raise e
  | None => mret tt
  end.

(** [client.read(key)] inside [try: ... except etcd.EtcdKeyNotFound]:
    [None] when the key is not found. *)
Definition read_or_not_found (key : string) : M (option EtcdResult.t) :=
  fun w => match read client (etcd w) key with
           | inr r => Next (Some r) w
           | inl EtcdKeyNotFound => Next None w
           | inl e => Halt (Uncaught e) w
           end.

(** [data['dir']], where [data] may be [None]. *)
Definition data_dir (data : option Data.t) : M bool :=
  match data with
  | Some d => mret (Data.dir d)
  | None => raise (TypeError "'NoneType' object is not subscriptable")
  end.

(** [data['children']], where the key may be missing. *)
Definition data_children (data : option Data.t) : M (gmap string Child.t) :=
  match data with
  | Some d =>
      match Data.children d with
      | Some c => mret c
      | None => raise (KeyError "children")
      end
  | None => raise (TypeError "'NoneType' object is not subscriptable")
  end.

(** [c is None] for a dictionary [c]. *)
Definition dict_is_None (c : gmap string Child.t) : bool := false.

(** ['%s' % v]. *)
Definition percent_s (v : option string) : string :=
  match v with
  | Some s => s
  | None => "None"
  end.

(** The loop of lines 291 to 293: the children by key. *)
Definition children_dict (l : list Child.t) : gmap string Child.t :=
  foldl (fun d child => <[Child.key child := child]> d) ∅ l.

(** Lines 276 to 297: [data] and the updated [results]. *)
Definition read_data (key : string) (results : Results.t)
  : M (option Data.t * Results.t) :=
  let* full_record := read_or_not_found key in
  match full_record with
  | Some full_record =>
      let isdir := EtcdResult.dir full_record in
      let value :=
        if isdir then None else Some (EtcdResult.value full_record) in
      let children :=
        match EtcdResult._children full_record with
        | [] => None
        | l => Some (children_dict l)
        end in
      let data :=
        {| Data.key := EtcdResult.key full_record;
           Data.dir := isdir;
           Data.value := value;
           Data.children := children |} in
      mret (Some data,
           {| Results.changed := Results.changed results;
              Results.key := Results.key results;
              Results.dir := if isdir then true else Results.dir results;
              Results.value := if isdir then Results.value results else value;
              Results.data := Some data |})
  | None => mret (None, results)
  end.

(** Lines 299 to 306: the flag [changed] in check mode. *)
Definition check_mode_changed (state : State) (value prev_value : option string)
    (results : Results.t) : Results.t :=
  if bool_decide (state = present) && bool_decide (value = None)
     && negb (bool_decide (prev_value = None))
  then Results.set_changed false results
  else if bool_decide (state = absent) && negb (bool_decide (prev_value = None))
          || bool_decide (state = present) && negb (bool_decide (prev_value = value))
  then Results.set_changed true results
  else results.

(** Lines 202 to 371. *)
Definition main (etcd_found : bool) (module : AnsibleModule.t) : M Empty_set :=
  let params := AnsibleModule.params module in
  when (negb etcd_found)
    (fail_json "the python etcd module is required") ;;
  when (negb (bool_decide (Params.api_version params = "/v2")))
    (fail_json "This module only support v2 of ETCD, for now") ;;
  let state := Params.state params in
  let key := Params.key params in
  let value := Params.value params in
  let override := Params.override params in
  let results :=
    {| Results.changed := false; Results.key := key; Results.dir := false;
       Results.value := None; Results.data := None |} in
  (* Attempt to get key *)
  let* got := read_or_not_found key in
  let prev_value := got ≫= EtcdResult.value in
  (* Now get all the data in the key *)
  let* (data, results) := read_data key results in
  (* Handle check mode *)
  when (AnsibleModule.check_mode module)
    (exit_json (check_mode_changed state value prev_value results)) ;;
  let* results :=
    match state with
    | directory =>
        (* we are making a directory *)
        if bool_decide (prev_value = None) && negb (Results.dir results) then
          call (Write key None true) ;;
          mret (Results.set_dir true (Results.set_changed true results))
        else if Results.dir results then exit_json results
        else fail_json ("A non-directory key already exists at " +:+ key)
    | present =>
        (* lets handle create mode *)
        if bool_decide (prev_value = None) then
          when (bool_decide (value = None))
            (fail_json ("Key " +:+ key
                        +:+ " does not exist and new value not provided.")) ;;
          let* e := attempt (Write key value false) in
          match e with
          | None => mret (Results.set_changed true results)
          | Some ConnectionError => fail_json "Cannot connect to target."
          | Some e => raise e
          end
        else if negb (bool_decide (prev_value = None)) then
          if bool_decide (prev_value = value) || bool_decide (value = None) then
            mret (Results.set_changed false results)
          else if override then
            call (Write key value false) ;;
            mret (Results.set_changed true results)
          else
            fail_json ("The Key '" +:+ key +:+ "' is already set with '"
                       +:+ percent_s prev_value +:+ "', exiting...")
        else fail_json "prev_value is nonsense"
    | absent =>
        (* And finally delete mode *)
        if bool_decide (prev_value = None) then
          mret (Results.set_changed false results)
        else
          let* isdir := data_dir data in
          if isdir then
            (* We want to delete a directory *)
            let* children := data_children data in
            if dict_is_None children && Params.recursive params then
              let* e := attempt (Delete key true false) in
              match e with
              | None => mret results
              | Some e => fail_json ("Directory delete failed: " +:+ str e)
              end
            else if dict_is_None children then
              let* e := attempt (Delete key false true) in
              match e with
              | None => mret results
              | Some _ =>
                  fail_json ("Directory " +:+ key
                             +:+ " has child objects and recursive was not set")
              end
            else mret results
          else
            let* e := attempt (Delete key false false) in
            match e with
            | None => mret (Results.set_changed true results)
            | Some ConnectionError => fail_json "Cannot connect to target."
            | Some e => raise e
            end
    end in
  exit_json results.

(** A run of the module from a world: how it ends, and the world then. *)
Definition run (etcd_found : bool) (module : AnsibleModule.t) (w : World store)
  : Outcome * World store :=
  match main etcd_found module w with
  | Halt o w' => (o, w')
  | Next a _ => match a with end
  end.

End Module.

Arguments World : clear implicits.

(** ** A reference client

    An etcd v2 store seen from one client: every key that exists holds a
    leaf with its value or a directory with its children.  A directory
    carries no value, a leaf no children, and a key nobody wrote is not
    found, as the replies of etcd have it.  The theorems below hold for
    every client; this one instantiates them. *)
Module Mem.

Inductive Node : Type :=
| Leaf (value : string)
| Dir (children : list Child.t).

Definition read (s : gmap string Node) (key : string) : Exn + EtcdResult.t :=
  match s !! key with
  | None => inl EtcdKeyNotFound
  | Some (Leaf v) =>
      inr {| EtcdResult.key := key; EtcdResult.value := Some v;
             EtcdResult.dir := false; EtcdResult._children := [] |}
  | Some (Dir l) =>
      inr {| EtcdResult.key := key; EtcdResult.value := None;
             EtcdResult.dir := true; EtcdResult._children := l |}
  end.

Definition write (s : gmap string Node) (key : string) (value : option string)
    (dir : bool) : Exn + gmap string Node :=
  if dir then
    match s !! key with
    | None => inr (<[key := Dir []]> s)
    | Some (Dir _) => inl (EtcdException "Not a file")
    | Some (Leaf _) => inl (EtcdException "Key already exists")
    end
  else
    match value, s !! key with
    | None, _ => inl (EtcdException "Value is Required in POST form")
    | Some _, Some (Dir _) => inl (EtcdException "Not a file")
    | Some v, _ => inr (<[key := Leaf v]> s)
    end.

Definition delete (s : gmap string Node) (key : string) (recursive dir : bool)
  : Exn + gmap string Node :=
  match s !! key with
  | None => inl EtcdKeyNotFound
  | Some (Leaf _) =>
      if dir then inl (EtcdException "Not a directory")
      else inr (base.delete key s)
  | Some (Dir l) =>
      if recursive then inr (base.delete key s)
      else if dir then
        match l with
        | [] => inr (base.delete key s)
        | _ => inl (EtcdException "Directory not empty")
        end
      else inl (EtcdException "Not a file")
  end.

Definition client : Client (gmap string Node) :=
  Build_Client _ read write delete.

(** A world that has issued no call yet. *)
Definition world (s : gmap string Node) : World (gmap string Node) :=
  {| etcd := s; calls := [] |}.

End Mem.

(** ** Runs and what they decide *)

(** A real run and a check-mode run of the module on the same parameters. *)
Definition real (params : Params.t) : AnsibleModule.t :=
  {| AnsibleModule.params := params; AnsibleModule.check_mode := false |}.

Definition check (params : Params.t) : AnsibleModule.t :=
  {| AnsibleModule.params := params; AnsibleModule.check_mode := true |}.

Section Decisions.
Context {store : Type} (client : Client store).

(** What the store shows at a key. *)
Definition key_absent (s : store) (key : string) : Prop :=
  read client s key = inl EtcdKeyNotFound.

Definition key_is_leaf (s : store) (key value : string) : Prop :=
  exists r, read client s key = inr r
            /\ EtcdResult.dir r = false /\ EtcdResult.value r = Some value.

(** A directory, whatever the reply says of its value. *)
Definition key_is_directory (s : store) (key : string) (children : list Child.t)
  : Prop :=
  exists r, read client s key = inr r
            /\ EtcdResult.dir r = true /\ EtcdResult._children r = children.

(** A directory as etcd replies: the node has no value. *)
Definition key_is_etcd_directory (s : store) (key : string)
    (children : list Child.t) : Prop :=
  exists r, read client s key = inr r
            /\ EtcdResult.dir r = true /\ EtcdResult.value r = None
            /\ EtcdResult._children r = children.

(** The run changes nothing: it issues no call and exits with
    [changed=False]. *)
Definition no_op (module : AnsibleModule.t) (w : World store) : Prop :=
  exists r, run client true module w = (ExitJson r, w)
            /\ Results.changed r = false.

(** The run is refused: it issues no call and ends in
    [fail_json(msg=msg)]. *)
Definition fails_with (msg : string) (module : AnsibleModule.t) (w : World store)
  : Prop :=
  run client true module w = (FailJson msg, w).

(** The run decides on the mutating call [c] with [changed=True].  A real
    run issues [c], and nothing else, and exits with [changed=True] once
    the store has accepted it; a check-mode run issues nothing and exits
    with [changed=True]. *)
Definition performs (c : Call) (module : AnsibleModule.t) (w : World store)
  : Prop :=
  if AnsibleModule.check_mode module then
    exists r, run client true module w = (ExitJson r, w)
              /\ Results.changed r = true
  else
    calls (run client true module w).2 = (calls w ++ [c])%list
    /\ forall s, perform client c (etcd w) = inr s ->
         exists r, run client true module w
                   = (ExitJson r, {| etcd := s; calls := calls w ++ [c] |})
                   /\ Results.changed r = true.

End Decisions.

(** The messages of the refusals. *)
Definition non_directory_exists (key : string) : string :=
  "A non-directory key already exists at " +:+ key.

Definition missing_value (key : string) : string :=
  "Key " +:+ key +:+ " does not exist and new value not provided.".

Definition overwrite_refused (key prev_value : string) : string :=
  "The Key '" +:+ key +:+ "' is already set with '" +:+ prev_value
  +:+ "', exiting...".

(** ** Properties of runs *)

Section Claims.
Context {store : Type} (client : Client store).

(** The value [main] finds at the key: [prev_value]. *)
Definition observed_value (s : store) (key : string) : option string :=
  match read client s key with
  | inr r => EtcdResult.value r
  | inl _ => None
  end.

(** The reads of the key answer or report that the key is not found. *)
Definition key_readable (s : store) (key : string) : Prop :=
  forall e, read client s key = inl e -> e = EtcdKeyNotFound.

(** A directory never comes with a value. *)
Definition directories_have_no_value (s : store) (key : string) : Prop :=
  forall r, read client s key = inr r ->
            EtcdResult.dir r = true -> EtcdResult.value r = None.

(** Dry-run fidelity: what the real run decides, the check-mode run
    decides. *)
Definition dry_run_fidelity (params : Params.t) (w : World store) : Prop :=
  (forall msg, fails_with client msg (real params) w ->
               fails_with client msg (check params) w)
  /\ (forall c, performs client c (real params) w ->
                performs client c (check params) w)
  /\ (no_op client (real params) w -> no_op client (check params) w).

(** No silent overwrite: a leaf with another value is overwritten with
    [override] only, and the refusal names the value in place. *)
Definition no_silent_overwrite (module : AnsibleModule.t) (w : World store)
  : Prop :=
  let params := AnsibleModule.params module in
  let key := Params.key params in
  forall prev_value value,
    key_is_leaf client (etcd w) key prev_value ->
    Params.value params = Some value ->
    prev_value <> value ->
    (Params.override params = false ->
       fails_with client (overwrite_refused key prev_value) module w)
    /\ (Params.override params = true ->
          performs client (Write key (Some value) false) module w).

(** A leaf is created from a value, and refused without one. *)
Definition leaf_creation_needs_value (module : AnsibleModule.t) (w : World store)
  : Prop :=
  let params := AnsibleModule.params module in
  let key := Params.key params in
  key_absent client (etcd w) key ->
  (Params.value params = None ->
     fails_with client (missing_value key) module w)
  /\ (forall value, Params.value params = Some value ->
         performs client (Write key (Some value) false) module w).

(** The decision table of the directory target. *)
Definition directory_target_table (module : AnsibleModule.t) (w : World store)
  : Prop :=
  let key := Params.key (AnsibleModule.params module) in
  (key_absent client (etcd w) key ->
     performs client (Write key None true) module w)
  /\ (forall l, key_is_directory client (etcd w) key l -> no_op client module w)
  /\ (forall v, key_is_leaf client (etcd w) key v ->
        fails_with client (non_directory_exists key) module w).

(** Idempotence: after a run, a second run changes nothing. *)
Definition idempotent (params : Params.t) (w : World store) : Prop :=
  no_op client (real params) (run client true (real params) w).2.

(** What idempotence asks of the store: a read shows the write or the
    delete the store accepted last. *)
Record ReadsReflectWrites : Prop :=
  { read_written : forall s key value s',
      write client s key (Some value) false = inr s' ->
      exists r, read client s' key = inr r /\ EtcdResult.value r = Some value;
    read_made_directory : forall s key s',
      write client s key None true = inr s' ->
      exists r, read client s' key = inr r /\ EtcdResult.dir r = true;
    read_deleted : forall s key s',
      delete client s key false false = inr s' ->
      read client s' key = inl EtcdKeyNotFound }.

End Claims.

(** ** Inputs for the examples *)

Definition params_of (state : State) (value : option string)
    (override recursive : bool) : Params.t :=
  {| Params.state := state; Params.api_version := "/v2"; Params.key := "/a";
     Params.value := value; Params.override := override;
     Params.recursive := recursive |}.

Definition child_b : Child.t :=
  {| Child.key := "/a/b"; Child.value := Some "x"; Child.dir := false |}.

(** Stores where [/a] is missing, a leaf, an empty directory and a
    directory with one child. *)
Definition store_empty : gmap string Mem.Node := ∅.
Definition store_leaf : gmap string Mem.Node := {[ "/a" := Mem.Leaf "v1" ]}.
Definition store_empty_dir : gmap string Mem.Node := {[ "/a" := Mem.Dir [] ]}.
Definition store_dir : gmap string Mem.Node := {[ "/a" := Mem.Dir [child_b] ]}.

(** ** More definitions for the properties of runs *)

(** The mutating calls of the three targets: each is on the key of the
    run. *)
Definition allowed_call (params : Params.t) (c : Call) : Prop :=
  (Params.state params = directory /\ c = Write (Params.key params) None true)
  \/ (Params.state params = present
      /\ exists v, Params.value params = Some v
                   /\ c = Write (Params.key params) (Some v) false)
  \/ (Params.state params = absent /\ c = Delete (Params.key params) false false).

(** The parameters with another [recursive]. *)
Definition with_recursive (b : bool) (params : Params.t) : Params.t :=
  {| Params.state := Params.state params;
     Params.api_version := Params.api_version params;
     Params.key := Params.key params;
     Params.value := Params.value params;
     Params.override := Params.override params;
     Params.recursive := b |}.

(** Parameters that ask for another version of the API. *)
Definition params_v3 : Params.t :=
  {| Params.state := present; Params.api_version := "/v3"; Params.key := "/a";
     Params.value := Some "v1"; Params.override := false;
     Params.recursive := false |}.

(** A client whose every mutating call raises [e]; its reads are those of
    the reference client, or raise [e] as well. *)
Module Faulty.
Definition client (reads : bool) (e : Exn) : Client (gmap string Mem.Node) :=
  Build_Client _
    (fun s key => if reads then Mem.read s key else inl e)
    (fun _ _ _ _ => inl e)
    (fun _ _ _ _ => inl e).
End Faulty.

(** ** Proofs *)

Arguments perform : simpl never.

(** Unfolds a run down to the calls of the client. *)
Ltac unfold_run :=
  cbv beta iota zeta delta
    [no_op fails_with performs run main bind when read_data read_or_not_found
     call attempt data_dir data_children exit_json fail_json raise mbind M_bind
     mret M_ret key_absent key_is_leaf key_is_directory key_is_etcd_directory
     observed_value check_mode_changed
     option_bind dict_is_None andb orb negb fst snd
     Results.set_changed Results.set_dir Results.changed Results.dir
     Results.key Results.value Results.data
     Data.key Data.dir Data.value Data.children
     AnsibleModule.params AnsibleModule.check_mode real check] in *.

(** Follows the run along the facts at hand: rewrites what the client
    answers and what the parameters are, and decides the tests. *)
Ltac crunch :=
  repeat first
    [ progress cbv beta iota
    | match goal with
      | H : read _ _ _ = _ |- context [read _ _ _] => rewrite H
      | H : perform _ _ _ = _ |- context [perform _ _ _] => rewrite H
      | H : ?x = _ |- context [bool_decide (?x = _)] => rewrite H
      | H : ?x = _ |- context [bool_decide (_ = ?x)] => rewrite H
      | H : ?x = _ |- context [if ?x then _ else _] => rewrite H
      | H : ?x = _ |- context [match ?x with _ => _ end] => rewrite H
      end
    | rewrite bool_decide_eq_true_2 by congruence
    | rewrite bool_decide_eq_false_2 by congruence
    | case_bool_decide ].

(** A list is not itself with one more call. *)
Ltac no_call_is_not_a_call H :=
  apply (f_equal length) in H; rewrite length_app in H; simpl in H; lia.

(** The real run decided on a call, or on no change; the goal is what
    the check-mode run reports. *)
Ltac real_decided_call :=
  first [ intros [Hc _]; exfalso; no_call_is_not_a_call Hc
        | intros _; eexists; split; reflexivity ].

Ltac real_decided_no_op :=
  try (destruct (perform _ _ _) as [[]|]);
  intros (r0 & Heq & Hch); try discriminate;
  try (injection Heq as <- Hw; simpl in Hch; try discriminate);
  eexists; split; reflexivity.

(** Proves that the store shows a leaf or a directory at a key. *)
Ltac shown := eexists; repeat split; reflexivity.

(** The two shapes of a run: no call, or one call that the store accepts
    or rejects. *)
Ltac no_call_case :=
  left; split; [reflexivity|];
  first [ intros _ ? Hx; first [discriminate Hx | injection Hx as <-; reflexivity]
        | discriminate
        | intros ? ? Hx; discriminate Hx ].

Ltac call_case :=
  right; split; [reflexivity|]; eexists; split;
  [ first [ left; split; reflexivity
          | right; left; split; [reflexivity|]; eexists; split; reflexivity
          | right; right; split; reflexivity ]
  | split; [reflexivity|];
    first [ left; split; [eassumption|]; eexists; split; reflexivity
          | right; eexists; split; [eassumption|]; split; [reflexivity|];
            first [ left; reflexivity | right; split; reflexivity ] ] ].

Section Proofs.
Context {store : Type} (client : Client store).

Implicit Types (module : AnsibleModule.t) (params : Params.t) (w : World store).

(** *** Helpers *)

Lemma readable_cases (s : store) key :
  key_readable client s key ->
  read client s key = inl EtcdKeyNotFound \/ exists r, read client s key = inr r.
Proof.
  unfold key_readable. intros H.
  destruct (read client s key) as [e|r] eqn:E; eauto.
  left. f_equal. eauto.
Qed.

(** In a real run with [state=absent], a directory whose reply lists
    children is left as it is, whatever [recursive] says: with no value
    in the reply the run takes the branch "nothing to do here", and with
    one, [data['children']] is a dictionary and never [None]. *)
Lemma absent_nonempty_directory params w l :
  Params.state params = absent ->
  Params.api_version params = "/v2" ->
  key_is_directory client (etcd w) (Params.key params) l ->
  l <> [] ->
  no_op client (real params) w.
Proof.
  intros Hst Hv (r & Hr & Hd & Hc) Hl. unfold_run.
  destruct l as [|c l]; [congruence|].
  destruct (EtcdResult.value r) eqn:Hpv; crunch; simpl; eauto.
Qed.

(** A real run that exits either changed nothing, or had the store
    accept the one call of its branch. *)
Lemma exit_cases params w r w1 :
  Params.api_version params = "/v2" ->
  run client true (real params) w = (ExitJson r, w1) ->
  (w1 = w /\ Results.changed r = false)
  \/ (Params.state params = directory
      /\ write client (etcd w) (Params.key params) None true = inr (etcd w1))
  \/ (Params.state params = present
      /\ exists v, Params.value params = Some v
           /\ write client (etcd w) (Params.key params) (Some v) false
              = inr (etcd w1))
  \/ (Params.state params = absent
      /\ delete client (etcd w) (Params.key params) false false = inr (etcd w1)).
Proof.
  intros Hv. unfold_run.
  destruct (read client (etcd w) (Params.key params)) as [e|r0] eqn:Hr.
  - destruct e; try (crunch; discriminate).
    destruct (Params.state params) eqn:Hst, (Params.value params) eqn:Hval;
      crunch; try discriminate.
    all: try (intros [= <- <-]; left; split; reflexivity).
    all: destruct (perform _ _ _) as [[]|] eqn:Hp; try discriminate.
    all: intros [= <- <-]; right; eauto 10.
  - destruct (Params.state params) eqn:Hst, (Params.value params) eqn:Hval,
      (EtcdResult.value r0) eqn:Hpv, (EtcdResult.dir r0) eqn:Hd,
      (Params.override params) eqn:Ho, (EtcdResult._children r0) eqn:Hc;
      crunch; try congruence; try discriminate.
    all: try (intros [= <- <-]; left; split; reflexivity).
    all: destruct (perform _ _ _) as [[]|] eqn:Hp; try discriminate.
    all: intros [= <- <-]; right; eauto 10.
Qed.

(** *** Check mode *)

(** C1, amended: a check-mode run issues no call and never fails.  For
    the targets [present] and [absent] it exits with [changed=True]
    exactly when [state=absent] and the key has a value, or
    [state=present] with a value given that is not the key's; and when the
    real run decides on a call or on no change, the check-mode run reports
    that decision. *)
Theorem check_mode_run params w :
  Params.api_version params = "/v2" ->
  key_readable client (etcd w) (Params.key params) ->
  (exists r, run client true (check params) w = (ExitJson r, w)
     /\ (Params.state params <> directory ->
         (Results.changed r = true <->
          (Params.state params = absent
           /\ observed_value client (etcd w) (Params.key params) <> None)
          \/ (Params.state params = present
              /\ Params.value params <> None
              /\ observed_value client (etcd w) (Params.key params)
                 <> Params.value params))))
  /\ (Params.state params <> directory ->
      directories_have_no_value client (etcd w) (Params.key params) ->
      (forall c, performs client c (real params) w ->
                 performs client c (check params) w)
      /\ (no_op client (real params) w -> no_op client (check params) w)).
Proof.
  intros Hv Hread. apply readable_cases in Hread. split.
  - unfold_run.
    destruct Hread as [Hr | [r Hr]]; crunch; simpl;
      (eexists; split; [reflexivity|]); simpl; intros Hnd.
    all: try (split; [discriminate|]).
    all: intuition congruence.
  - intros Hnd Hwf. unfold directories_have_no_value in Hwf. unfold_run.
    split; [intros c|]; destruct Hread as [Hr | [r Hr]].
    all: try pose proof (Hwf r Hr) as Hwf'.
    all: destruct (Params.state params) eqn:Hst; [| |congruence].
    all: destruct (Params.value params) eqn:Hval.
    all: try (destruct (EtcdResult.value r) eqn:Hpv,
                (EtcdResult.dir r) eqn:Hd,
                (Params.override params) eqn:Ho).
    all: try (specialize (Hwf' eq_refl); discriminate).
    all: crunch.
    all: first [real_decided_call | real_decided_no_op].
Qed.

(** *** The target [present] *)

(** C5, amended: in a real run a leaf holding another value is never
    overwritten without [override]: the run fails with a message that
    carries the value in place; with [override] the new value is
    written and [changed=True]. *)
Theorem no_silent_overwrite_real_run module w :
  Params.state (AnsibleModule.params module) = present ->
  Params.api_version (AnsibleModule.params module) = "/v2" ->
  AnsibleModule.check_mode module = false ->
  no_silent_overwrite client module w.
Proof.
  destruct module as [p cm]. intros Hst Hv Hcm.
  unfold no_silent_overwrite. unfold_run. subst cm.
  intros pv v (r & Hr & Hd & Hval) Hp Hne. repeat split.
  - intros Ho. crunch; try congruence. reflexivity.
  - crunch; try congruence. destruct (perform _ _ _); reflexivity.
  - intros s Hs. crunch; try congruence. eauto.
Qed.

(** C6, amended: in a real run on an absent key, the run fails with
    "Key ... does not exist and new value not provided." when no value
    is given; a given value is written and [changed=True]. *)
Theorem leaf_creation_real_run module w :
  Params.state (AnsibleModule.params module) = present ->
  Params.api_version (AnsibleModule.params module) = "/v2" ->
  AnsibleModule.check_mode module = false ->
  leaf_creation_needs_value client module w.
Proof.
  destruct module as [p cm]. intros Hst Hv Hcm.
  unfold leaf_creation_needs_value. unfold_run. subst cm.
  intros Habs. repeat split.
  - intros Hp. crunch; try congruence. reflexivity.
  - crunch; try congruence. destruct (perform _ _ _) as [[]|]; reflexivity.
  - intros s Hs. crunch; try congruence. eauto.
Qed.

(** C7: what a real run with [state=present] does where etcd holds a
    directory.  The reply has no value, so the run takes the key for
    missing: without a value it fails with "Key ... does not exist and
    new value not provided.", and with one it issues the leaf write
    [client.write(key, value)]. *)
Theorem leaf_written_over_directory params w l :
  Params.state params = present ->
  Params.api_version params = "/v2" ->
  key_is_etcd_directory client (etcd w) (Params.key params) l ->
  (Params.value params = None ->
     fails_with client (missing_value (Params.key params)) (real params) w)
  /\ (forall value, Params.value params = Some value ->
        performs client (Write (Params.key params) (Some value) false)
          (real params) w).
Proof.
  intros Hst Hv (r & Hr & Hd & Hpv & Hc). unfold_run. repeat split.
  - intros Hp. crunch; try congruence. reflexivity.
  - crunch; try congruence. destruct (perform _ _ _) as [[]|]; reflexivity.
  - intros s Hs. crunch; try congruence. eauto.
Qed.

(** *** The target [directory] *)

(** C8, amended: in a real run the directory target follows its table.
    An absent key gets [client.write(key, None, dir=True)] and
    [changed=True]; a directory is left alone with [changed=False]; a leaf
    at the key makes the run fail with "A non-directory key already
    exists at" and the key. *)
Theorem directory_target_real_run module w :
  Params.state (AnsibleModule.params module) = directory ->
  Params.api_version (AnsibleModule.params module) = "/v2" ->
  AnsibleModule.check_mode module = false ->
  directory_target_table client module w.
Proof.
  destruct module as [p cm]. intros Hst Hv Hcm.
  unfold directory_target_table. unfold_run. subst cm.
  repeat split.
  - crunch. destruct (perform _ _ _); reflexivity.
  - intros s Hs. crunch. eauto.
  - intros l (r & Hr & Hd & Hc). crunch; simpl; eauto.
  - intros v (r & Hr & Hd & Hval). crunch; reflexivity.
Qed.

(** *** The target [absent] *)

(** C2: what a real run with [state=absent] and [recursive=True] does on
    a directory with children: it issues no call, the recursive delete
    neither, and exits with [changed=False]. *)
Theorem recursive_delete_not_issued params w l :
  Params.state params = absent ->
  Params.api_version params = "/v2" ->
  Params.recursive params = true ->
  key_is_directory client (etcd w) (Params.key params) l ->
  l <> [] ->
  no_op client (real params) w.
Proof. intros Hst Hv _. by apply absent_nonempty_directory. Qed.

(** C3: what a real run with [state=absent] and [recursive=False] does
    on a directory with children: it issues no call, and it does not
    fail either; it exits with [changed=False]. *)
Theorem nonempty_directory_not_refused params w l :
  Params.state params = absent ->
  Params.api_version params = "/v2" ->
  Params.recursive params = false ->
  key_is_directory client (etcd w) (Params.key params) l ->
  l <> [] ->
  no_op client (real params) w.
Proof. intros Hst Hv _. by apply absent_nonempty_directory. Qed.

(** C4: what a real run with [state=absent] does on an empty directory
    of etcd, whatever [recursive] is: it issues no call and exits with
    [changed=False]; the directory stays. *)
Theorem empty_directory_not_deleted params w :
  Params.state params = absent ->
  Params.api_version params = "/v2" ->
  key_is_etcd_directory client (etcd w) (Params.key params) [] ->
  no_op client (real params) w.
Proof.
  intros Hst Hv (r & Hr & Hd & Hpv & Hc). unfold_run.
  crunch; simpl; eauto.
Qed.

(** C10: with [state=absent], a key that is a directory never comes out
    with [changed=True].  In the branch of the real run, whatever the
    reply says of the directory, the run issues no call, and if it exits,
    it exits with [changed=False]; on a directory as etcd replies it does
    exit, in a real run and in check mode.  An exit of the real run with
    [changed=True] comes from the leaf path alone, after
    [client.delete(key)]; and a leaf takes that path. *)
Theorem absent_directory_never_changed params w :
  Params.state params = absent ->
  Params.api_version params = "/v2" ->
  (forall l, key_is_directory client (etcd w) (Params.key params) l ->
     (run client true (real params) w).2 = w
     /\ forall r, (run client true (real params) w).1 = ExitJson r ->
                  Results.changed r = false)
  /\ (forall l, key_is_etcd_directory client (etcd w) (Params.key params) l ->
        no_op client (real params) w /\ no_op client (check params) w)
  /\ (forall r w', run client true (real params) w = (ExitJson r, w') ->
        Results.changed r = true ->
        (exists v, key_is_leaf client (etcd w) (Params.key params) v)
        /\ calls w' = (calls w ++ [Delete (Params.key params) false false])%list)
  /\ (forall v, key_is_leaf client (etcd w) (Params.key params) v ->
        performs client (Delete (Params.key params) false false) (real params) w).
Proof.
  intros Hst Hv. split; [|split; [|split]].
  - intros l (r & Hr & Hd & Hc). unfold_run. split.
    + destruct (EtcdResult.value r) eqn:Hpv, l; crunch; reflexivity.
    + intros r0.
      destruct (EtcdResult.value r) eqn:Hpv, l; crunch; simpl;
        first [discriminate | intros [= <-]; reflexivity].
  - intros l (r & Hr & Hd & Hpv & Hc). unfold_run.
    split; crunch; simpl; eauto.
  - intros r w'. unfold_run.
    destruct (read client (etcd w) (Params.key params)) as [[]|r0] eqn:Hr; crunch;
      try discriminate.
    all: try (intros [= <- <-]; simpl; discriminate).
    destruct (EtcdResult.value r0) eqn:Hpv, (EtcdResult.dir r0) eqn:Hd,
         (EtcdResult._children r0) eqn:Hc; crunch; try congruence;
      try discriminate.
    all: try (intros [= <- <-]; simpl; discriminate).
    all: destruct (perform _ _ _) as [[]|]; try discriminate.
    all: intros [= <- <-] _; split; eauto.
  - intros v (r & Hr & Hd & Hpv). unfold_run. split.
    + crunch. destruct (perform _ _ _) as [[]|]; reflexivity.
    + intros s Hs. crunch. eauto.
Qed.

(** *** Two runs in a row *)

(** C9, amended: where reads reflect the accepted writes and deletes,
    a real run that exits is followed by a run that issues no call and
    exits with [changed=False]. *)
Theorem second_run_changes_nothing params w :
  ReadsReflectWrites client ->
  Params.api_version params = "/v2" ->
  (exists r, (run client true (real params) w).1 = ExitJson r) ->
  idempotent client params w.
Proof.
  intros Hlaws Hv [r Hr]. unfold idempotent.
  destruct (run client true (real params) w) as [o w1] eqn:Hrun.
  simpl in Hr. subst o. simpl.
  destruct (exit_cases _ _ _ _ Hv Hrun)
    as [[-> Hch] | [[Hst Hw] | [(Hst & v & Hval & Hw) | [Hst Hw]]]].
  - exists r. split; assumption.
  - destruct (read_made_directory _ Hlaws _ _ _ Hw) as (r' & Hr' & Hd).
    clear Hrun. unfold_run. crunch; simpl; eauto.
  - destruct (read_written _ Hlaws _ _ _ _ Hw) as (r' & Hr' & Hpv).
    clear Hrun. unfold_run. crunch; try congruence; simpl; eauto.
  - pose proof (read_deleted _ Hlaws _ _ _ Hw) as Hr'.
    clear Hrun. unfold_run. crunch; try congruence; simpl; eauto.
Qed.

End Proofs.

(** ** The reference client at work *)

Lemma Mem_reads_reflect_writes : ReadsReflectWrites Mem.client.
Proof.
  split; simpl; unfold Mem.write, Mem.delete, Mem.read.
  - intros s key value s' H.
    destruct (s !! key) as [[]|]; try discriminate; injection H as <-.
    all: rewrite lookup_insert_eq; eauto.
  - intros s key s' H.
    destruct (s !! key) as [[]|]; try discriminate; injection H as <-.
    rewrite lookup_insert_eq; eauto.
  - intros s key s' H.
    destruct (s !! key) as [[]|]; try discriminate; injection H as <-.
    by rewrite lookup_delete_eq.
Qed.

Lemma Mem_key_readable s key : key_readable Mem.client s key.
Proof.
  unfold key_readable; simpl; unfold Mem.read. intros e.
  destruct (s !! key) as [[]|]; congruence.
Qed.

Lemma Mem_directories_have_no_value s key :
  directories_have_no_value Mem.client s key.
Proof.
  unfold directories_have_no_value; simpl; unfold Mem.read. intros r.
  destruct (s !! key) as [[]|]; intros [= <-]; simpl; congruence.
Qed.

(** *** Check mode against the real run *)

(** C1, as stated, fails: [state=present], no value, key [/a] missing.
    The real run fails with "Key /a does not exist and new value not
    provided."; the check-mode run exits with [changed=False]. *)
Lemma dry_run_is_not_faithful :
  (run Mem.client true (real (params_of present None false false))
     (Mem.world store_empty)).1
  = FailJson "Key /a does not exist and new value not provided."
  /\ (exists r,
        (run Mem.client true (check (params_of present None false false))
           (Mem.world store_empty)).1 = ExitJson r
        /\ Results.changed r = false)
  /\ ~ dry_run_fidelity Mem.client (params_of present None false false)
        (Mem.world store_empty).
Proof.
  repeat split.
  - eexists; split; reflexivity.
  - intros (Hfail & _ & _).
    specialize (Hfail (missing_value "/a") eq_refl).
    vm_compute in Hfail. discriminate.
Qed.

(** Check mode at [/a]: a leaf to overwrite, then an empty directory to
    delete. *)
Lemma check_mode_run_witness :
  (exists r, run Mem.client true (check (params_of present (Some "v2") true false))
               (Mem.world store_leaf)
             = (ExitJson r, Mem.world store_leaf)
             /\ Results.changed r = true)
  /\ performs Mem.client (Write "/a" (Some "v2") false)
       (check (params_of present (Some "v2") true false)) (Mem.world store_leaf)
  /\ no_op Mem.client (check (params_of absent None false false))
       (Mem.world store_empty_dir).
Proof.
  split; [|split].
  - destruct (check_mode_run Mem.client (params_of present (Some "v2") true false)
                (Mem.world store_leaf) eq_refl (Mem_key_readable _ _))
      as [(r & Hrun & Hiff) _].
    exists r. split; [exact Hrun|].
    apply Hiff; [discriminate|]. right. repeat split; [discriminate|].
    vm_compute. discriminate.
  - destruct (check_mode_run Mem.client (params_of present (Some "v2") true false)
                (Mem.world store_leaf) eq_refl (Mem_key_readable _ _))
      as [_ Hsame].
    destruct Hsame as [Hcall _];
      [discriminate | apply Mem_directories_have_no_value |].
    apply Hcall. split; [reflexivity|].
    intros s [= <-]. eexists; split; reflexivity.
  - destruct (check_mode_run Mem.client (params_of absent None false false)
                (Mem.world store_empty_dir) eq_refl (Mem_key_readable _ _))
      as [_ Hsame].
    destruct Hsame as [_ Hnoop];
      [discriminate | apply Mem_directories_have_no_value |].
    apply Hnoop. eexists; split; reflexivity.
Defined.

(** *** The target [present] *)

(** C5, as stated, fails in check mode: [state=present], value [v2],
    [override=False], key [/a] holding [v1].  The check-mode run does not
    fail; it exits with [changed=True]. *)
Lemma check_mode_does_not_refuse_overwrite :
  (exists r,
     (run Mem.client true (check (params_of present (Some "v2") false false))
        (Mem.world store_leaf)).1 = ExitJson r
     /\ Results.changed r = true)
  /\ ~ no_silent_overwrite Mem.client
        (check (params_of present (Some "v2") false false)) (Mem.world store_leaf).
Proof.
  split.
  - eexists; split; reflexivity.
  - intros H. destruct (H "v1" "v2") as [Hfail _];
      [shown | reflexivity | discriminate |].
    specialize (Hfail eq_refl). vm_compute in Hfail. discriminate.
Qed.

(** [/a] holds [v1] and [v2] is asked for, without and with [override]. *)
Lemma no_silent_overwrite_real_run_witness :
  fails_with Mem.client (overwrite_refused "/a" "v1")
    (real (params_of present (Some "v2") false false)) (Mem.world store_leaf)
  /\ performs Mem.client (Write "/a" (Some "v2") false)
       (real (params_of present (Some "v2") true false)) (Mem.world store_leaf).
Proof.
  split.
  - destruct (no_silent_overwrite_real_run Mem.client
                (real (params_of present (Some "v2") false false))
                (Mem.world store_leaf) eq_refl eq_refl eq_refl "v1" "v2")
      as [Hfail _]; [shown | reflexivity | discriminate |].
    apply Hfail. reflexivity.
  - destruct (no_silent_overwrite_real_run Mem.client
                (real (params_of present (Some "v2") true false))
                (Mem.world store_leaf) eq_refl eq_refl eq_refl "v1" "v2")
      as [_ Hwrite]; [shown | reflexivity | discriminate |].
    apply Hwrite. reflexivity.
Defined.

(** C6, as stated, fails in check mode: [state=present], no value, key
    [/a] missing.  The check-mode run does not fail; it exits with
    [changed=False]. *)
Lemma check_mode_does_not_ask_for_value :
  (exists r,
     (run Mem.client true (check (params_of present None false false))
        (Mem.world store_empty)).1 = ExitJson r
     /\ Results.changed r = false)
  /\ ~ leaf_creation_needs_value Mem.client
        (check (params_of present None false false)) (Mem.world store_empty).
Proof.
  split.
  - eexists; split; reflexivity.
  - intros H. destruct H as [Hfail _]; [reflexivity|].
    specialize (Hfail eq_refl). vm_compute in Hfail. discriminate.
Qed.

(** [/a] is missing, and asked for without and with a value. *)
Lemma leaf_creation_real_run_witness :
  fails_with Mem.client (missing_value "/a")
    (real (params_of present None false false)) (Mem.world store_empty)
  /\ performs Mem.client (Write "/a" (Some "v1") false)
       (real (params_of present (Some "v1") false false)) (Mem.world store_empty).
Proof.
  split.
  - destruct (leaf_creation_real_run Mem.client
                (real (params_of present None false false))
                (Mem.world store_empty) eq_refl eq_refl eq_refl)
      as [Hfail _]; [reflexivity|].
    apply Hfail. reflexivity.
  - destruct (leaf_creation_real_run Mem.client
                (real (params_of present (Some "v1") false false))
                (Mem.world store_empty) eq_refl eq_refl eq_refl)
      as [_ Hwrite]; [reflexivity|].
    apply Hwrite. reflexivity.
Defined.

(** [/a] is a directory, and a leaf is asked for without and with a
    value. *)
Lemma leaf_written_over_directory_witness :
  fails_with Mem.client (missing_value "/a")
    (real (params_of present None false false)) (Mem.world store_dir)
  /\ calls (run Mem.client true (real (params_of present (Some "v") false false))
              (Mem.world store_dir)).2
     = [Write "/a" (Some "v") false].
Proof.
  split.
  - destruct (leaf_written_over_directory Mem.client
                (params_of present None false false) (Mem.world store_dir)
                [child_b] eq_refl eq_refl)
      as [Hfail _]; [shown|].
    apply Hfail. reflexivity.
  - destruct (leaf_written_over_directory Mem.client
                (params_of present (Some "v") false false) (Mem.world store_dir)
                [child_b] eq_refl eq_refl)
      as [_ Hwrite]; [shown|].
    destruct (Hwrite "v" eq_refl) as [Hcalls _]. exact Hcalls.
Defined.

(** *** The target [directory] *)

(** C8, as stated, fails in check mode: [state=directory], key [/a]
    holding the leaf [v1].  The check-mode run does not fail; it exits
    with [changed=False]. *)
Lemma check_mode_does_not_see_the_leaf :
  (exists r,
     (run Mem.client true (check (params_of directory None false false))
        (Mem.world store_leaf)).1 = ExitJson r
     /\ Results.changed r = false)
  /\ ~ directory_target_table Mem.client
        (check (params_of directory None false false)) (Mem.world store_leaf).
Proof.
  split.
  - eexists; split; reflexivity.
  - intros (_ & _ & Hfail).
    assert (Hleaf : key_is_leaf Mem.client store_leaf "/a" "v1") by shown.
    specialize (Hfail "v1" Hleaf). vm_compute in Hfail. discriminate.
Qed.

(** [/a] missing, a directory, a leaf. *)
Lemma directory_target_real_run_witness :
  performs Mem.client (Write "/a" None true)
    (real (params_of directory None false false)) (Mem.world store_empty)
  /\ no_op Mem.client (real (params_of directory None false false))
       (Mem.world store_dir)
  /\ fails_with Mem.client (non_directory_exists "/a")
       (real (params_of directory None false false)) (Mem.world store_leaf).
Proof.
  split; [|split].
  - destruct (directory_target_real_run Mem.client
                (real (params_of directory None false false))
                (Mem.world store_empty) eq_refl eq_refl eq_refl)
      as (Hmk & _ & _).
    apply Hmk. reflexivity.
  - destruct (directory_target_real_run Mem.client
                (real (params_of directory None false false))
                (Mem.world store_dir) eq_refl eq_refl eq_refl)
      as (_ & Hdir & _).
    apply (Hdir [child_b]). shown.
  - destruct (directory_target_real_run Mem.client
                (real (params_of directory None false false))
                (Mem.world store_leaf) eq_refl eq_refl eq_refl)
      as (_ & _ & Hleaf).
    apply (Hleaf "v1"). shown.
Defined.

(** *** The target [absent] *)

(** [/a] is a directory with the child [/a/b], and [recursive=True]. *)
Lemma recursive_delete_not_issued_witness :
  no_op Mem.client (real (params_of absent None false true)) (Mem.world store_dir).
Proof.
  apply (recursive_delete_not_issued Mem.client
           (params_of absent None false true) (Mem.world store_dir) [child_b]);
    [reflexivity | reflexivity | reflexivity | shown | discriminate].
Defined.

(** [/a] is a directory with the child [/a/b], and [recursive=False]. *)
Lemma nonempty_directory_not_refused_witness :
  no_op Mem.client (real (params_of absent None false false)) (Mem.world store_dir).
Proof.
  apply (nonempty_directory_not_refused Mem.client
           (params_of absent None false false) (Mem.world store_dir) [child_b]);
    [reflexivity | reflexivity | reflexivity | shown | discriminate].
Defined.

(** [/a] is an empty directory, without and with [recursive]. *)
Lemma empty_directory_not_deleted_witness :
  no_op Mem.client (real (params_of absent None false false))
    (Mem.world store_empty_dir)
  /\ no_op Mem.client (real (params_of absent None false true))
       (Mem.world store_empty_dir).
Proof.
  split.
  - apply (empty_directory_not_deleted Mem.client
             (params_of absent None false false) (Mem.world store_empty_dir));
      [reflexivity | reflexivity | shown].
  - apply (empty_directory_not_deleted Mem.client
             (params_of absent None false true) (Mem.world store_empty_dir));
      [reflexivity | reflexivity | shown].
Defined.

(** [/a] a directory with a child, then a leaf. *)
Lemma absent_directory_never_changed_witness :
  (no_op Mem.client (real (params_of absent None false true)) (Mem.world store_dir)
   /\ no_op Mem.client (check (params_of absent None false true))
        (Mem.world store_dir))
  /\ performs Mem.client (Delete "/a" false false)
       (real (params_of absent None false false)) (Mem.world store_leaf).
Proof.
  split.
  - destruct (absent_directory_never_changed Mem.client
                (params_of absent None false true) (Mem.world store_dir)
                eq_refl eq_refl)
      as (_ & Hdir & _ & _).
    apply (Hdir [child_b]). shown.
  - destruct (absent_directory_never_changed Mem.client
                (params_of absent None false false) (Mem.world store_leaf)
                eq_refl eq_refl)
      as (_ & _ & _ & Hleaf).
    apply (Hleaf "v1"). shown.
Defined.

(** *** Two runs in a row *)

(** C9, as stated, fails: [state=directory], key [/a] holding the leaf
    [v1].  The first run fails with "A non-directory key already exists at
    /a" and leaves the store as it is, and so does the second: it is not a
    run without change that exits. *)
Lemma refused_run_is_refused_again :
  run Mem.client true (real (params_of directory None false false))
    (Mem.world store_leaf)
  = (FailJson "A non-directory key already exists at /a", Mem.world store_leaf)
  /\ run Mem.client true (real (params_of directory None false false))
       (run Mem.client true (real (params_of directory None false false))
          (Mem.world store_leaf)).2
     = (FailJson "A non-directory key already exists at /a", Mem.world store_leaf)
  /\ ~ idempotent Mem.client (params_of directory None false false)
        (Mem.world store_leaf).
Proof.
  repeat split.
  intros (r & Hrun & _). vm_compute in Hrun. discriminate.
Qed.

(** Creating the leaf [/a], deleting it, making the directory [/a]: each
    twice. *)
Lemma second_run_changes_nothing_witness :
  idempotent Mem.client (params_of present (Some "v1") false false)
    (Mem.world store_empty)
  /\ idempotent Mem.client (params_of absent None false false)
       (Mem.world store_leaf)
  /\ idempotent Mem.client (params_of directory None false false)
       (Mem.world store_empty).
Proof.
  split; [|split].
  - apply (second_run_changes_nothing Mem.client
             (params_of present (Some "v1") false false) (Mem.world store_empty)
             Mem_reads_reflect_writes eq_refl).
    eexists. reflexivity.
  - apply (second_run_changes_nothing Mem.client
             (params_of absent None false false) (Mem.world store_leaf)
             Mem_reads_reflect_writes eq_refl).
    eexists. reflexivity.
  - apply (second_run_changes_nothing Mem.client
             (params_of directory None false false) (Mem.world store_empty)
             Mem_reads_reflect_writes eq_refl).
    eexists. reflexivity.
Defined.

(** ** More on the children dictionary *)

(** The loop, from any dictionary. *)
Lemma children_dict_from (l : list Child.t) (d : gmap string Child.t) (k : string) :
  foldl (fun d child => <[Child.key child := child]> d) d l !! k
  = match last (filter (fun c => Child.key c = k) l) with
    | Some c => Some c
    | None => d !! k
    end.
Proof.
  revert d. induction l as [|c l IH]; intros d; [reflexivity|].
  simpl. rewrite IH. rewrite filter_cons.
  destruct (decide (Child.key c = k)) as [Heq|Hne].
  - rewrite last_cons. destruct (last (filter _ l)); [reflexivity|].
    subst k. by rewrite lookup_insert_eq.
  - destruct (last (filter _ l)); [reflexivity|]. by rewrite lookup_insert_ne.
Qed.

(** No child has the key. *)
Lemma filter_key_nil (l : list Child.t) (k : string) :
  filter (fun c => Child.key c = k) l = [] <-> k ∉ Child.key <$> l.
Proof.
  induction l as [|c l IH]; simpl.
  - split; [intros _; apply not_elem_of_nil|reflexivity].
  - rewrite filter_cons, not_elem_of_cons.
    destruct (decide (Child.key c = k)) as [Heq|Hne].
    + split; [discriminate|]. intros [Hk _]. congruence.
    + rewrite IH. split; [intros H; split; [congruence|exact H]|intros [_ H]; exact H].
Qed.

(** X11: the dictionary of the children (lines 290 to 293) gives, for a
    key, the last child of the reply with that key, and nothing for a key
    no child has. *)
Theorem children_dict_lookup (l : list Child.t) (k : string) :
  children_dict l !! k = last (filter (fun c => Child.key c = k) l).
Proof.
  unfold children_dict. rewrite children_dict_from.
  destruct (last _); [reflexivity|]. apply lookup_empty.
Qed.

(** X12: when the children of the reply have distinct keys, each child
    is found in the dictionary under its own key. *)
Theorem children_dict_distinct (l : list Child.t) (c : Child.t) :
  NoDup (Child.key <$> l) -> c ∈ l ->
  children_dict l !! Child.key c = Some c.
Proof.
  intros Hnd Hin. apply list_elem_of_split in Hin as (l1 & l2 & ->).
  unfold children_dict. rewrite foldl_app. simpl.
  rewrite children_dict_from.
  rewrite fmap_app, fmap_cons in Hnd.
  apply NoDup_app in Hnd as (_ & _ & Hnd). apply NoDup_cons in Hnd as [Hnotin _].
  apply filter_key_nil in Hnotin. rewrite Hnotin. simpl.
  apply lookup_insert_eq.
Qed.

(** ** More on runs *)

Section Runs.
Context {store : Type} (client : Client store).

Implicit Types (module : AnsibleModule.t) (params : Params.t) (w : World store).

(** Every run has one of two shapes.  Either it issues no call, and then
    a real run that exits has [changed=False]; or it is a real run that
    issues one call of its target: accepted, and the run exits with
    [changed=True], or rejected, and the run ends with the exception or
    with "Cannot connect to target." and leaves the store as it was. *)
Lemma run_shape etcd_found module w o w' :
  run client etcd_found module w = (o, w') ->
  (w' = w
   /\ (AnsibleModule.check_mode module = false ->
       forall r, o = ExitJson r -> Results.changed r = false))
  \/ (AnsibleModule.check_mode module = false
      /\ exists c, allowed_call (AnsibleModule.params module) c
         /\ calls w' = (calls w ++ [c])%list
         /\ ((perform client c (etcd w) = inr (etcd w')
              /\ exists r, o = ExitJson r /\ Results.changed r = true)
             \/ (exists e, perform client c (etcd w) = inl e
                 /\ etcd w' = etcd w
                 /\ (o = Uncaught e
                     \/ (e = ConnectionError
                         /\ o = FailJson "Cannot connect to target."))))).
Proof.
  destruct module as [p cm]. unfold allowed_call. unfold_run.
  destruct etcd_found; cbv beta iota; [|intros [= <- <-]; no_call_case].
  case_bool_decide as Hv; cbv beta iota; [|intros [= <- <-]; no_call_case].
  destruct (read client (etcd w) (Params.key p)) as [e|r0] eqn:Hr.
  - destruct e; try (crunch; intros [= <- <-]; no_call_case).
    destruct cm; [crunch; intros [= <- <-]; no_call_case|].
    destruct (Params.state p) eqn:Hst, (Params.value p) eqn:Hval; crunch.
    all: try (intros [= <- <-]; no_call_case).
    all: destruct (perform _ _ _) as [[]|] eqn:Hp; intros [= <- <-]; call_case.
  - destruct cm; [crunch; intros [= <- <-]; no_call_case|].
    destruct (Params.state p) eqn:Hst, (Params.value p) eqn:Hval,
      (EtcdResult.value r0) eqn:Hpv, (EtcdResult.dir r0) eqn:Hd,
      (Params.override p) eqn:Ho, (EtcdResult._children r0) eqn:Hc;
      crunch; try congruence.
    all: try (intros [= <- <-]; no_call_case).
    all: destruct (perform _ _ _) as [[]|] eqn:Hp; intros [= <- <-]; call_case.
Qed.

(** X1: without the python etcd module the run fails with "the python
    etcd module is required", and with another [api_version] than [/v2]
    it fails with "This module only support v2 of ETCD, for now"; in both
    cases whatever the target and the mode, and without a call. *)
Theorem guards_come_first module w :
  run client false module w
  = (FailJson "the python etcd module is required", w)
  /\ (Params.api_version (AnsibleModule.params module) <> "/v2" ->
      run client true module w
      = (FailJson "This module only support v2 of ETCD, for now", w)).
Proof.
  destruct module as [p cm]. unfold_run. split; [reflexivity|].
  intros Hv. crunch; try congruence; reflexivity.
Qed.

(** X2: a read that raises anything but [EtcdKeyNotFound] ends the run
    with that exception uncaught, in both modes and without a call. *)
Theorem read_error_uncaught module w e :
  Params.api_version (AnsibleModule.params module) = "/v2" ->
  read client (etcd w) (Params.key (AnsibleModule.params module)) = inl e ->
  e <> EtcdKeyNotFound ->
  run client true module w = (Uncaught e, w).
Proof.
  destruct module as [p cm]. unfold_run. intros Hv Hr He.
  destruct e; try congruence; crunch; reflexivity.
Qed.

(** X3: a run issues no mutating call or exactly one, and that one is the
    call of its target on its own key: [write(key, None, dir=True)] for
    [directory], [write(key, value)] for [present], [delete(key)] for
    [absent]. *)
Theorem at_most_one_call etcd_found module w :
  calls (run client etcd_found module w).2 = calls w
  \/ exists c, allowed_call (AnsibleModule.params module) c
       /\ calls (run client etcd_found module w).2 = (calls w ++ [c])%list.
Proof.
  destruct (run client etcd_found module w) as [o w'] eqn:Hrun. simpl.
  destruct (run_shape _ _ _ _ _ Hrun) as [[-> _] | (_ & c & Hc & Hcalls & _)];
    eauto.
Qed.

(** X4: a run never issues a delete with [recursive=True] or with
    [dir=True]: a delete it adds to the calls is the plain [delete(key)]
    of the target [absent]. *)
Theorem directory_delete_never_issued etcd_found module w key recursive dir :
  Delete key recursive dir ∈ calls (run client etcd_found module w).2 ->
  Delete key recursive dir ∈ calls w
  \/ (recursive = false /\ dir = false
      /\ key = Params.key (AnsibleModule.params module)
      /\ Params.state (AnsibleModule.params module) = absent).
Proof.
  destruct (run client etcd_found module w) as [o w'] eqn:Hrun. simpl.
  destruct (run_shape _ _ _ _ _ Hrun) as [[-> _] | (_ & c & Hc & Hcalls & _)];
    [by left|].
  rewrite Hcalls, elem_of_app, list_elem_of_singleton.
  intros [Hin | Heq]; [by left|]. right. subst c.
  destruct Hc as [[_ Hc] | [(_ & v & _ & Hc) | [Hst Hc]]]; try discriminate.
  injection Hc as Hk Hr Hd. done.
Qed.

(** X5: a check-mode run issues no mutating call and leaves the store as
    it is, whatever its outcome. *)
Theorem check_mode_never_calls etcd_found params w :
  (run client etcd_found (check params) w).2 = w.
Proof.
  destruct (run client etcd_found (check params) w) as [o w'] eqn:Hrun. simpl.
  destruct (run_shape _ _ _ _ _ Hrun) as [[-> _] | ([=] & _)]. reflexivity.
Qed.

(** X6: a run that does not end in [exit_json] leaves the store as it
    was. *)
Theorem failed_run_leaves_store etcd_found module w :
  (forall r, (run client etcd_found module w).1 <> ExitJson r) ->
  etcd (run client etcd_found module w).2 = etcd w.
Proof.
  destruct (run client etcd_found module w) as [o w'] eqn:Hrun. simpl.
  intros Hfail.
  destruct (run_shape _ _ _ _ _ Hrun)
    as [[-> _] | (_ & c & _ & _ & [(_ & r & -> & _) | (e & _ & Hst & _)])].
  - reflexivity.
  - by destruct (Hfail r).
  - exact Hst.
Qed.

(** X7: in a real run that exits, [changed=True] tells that the store
    accepted the one call of the run, and [changed=False] that no call was
    issued. *)
Theorem changed_reports_accepted_call etcd_found params w r w' :
  run client etcd_found (real params) w = (ExitJson r, w') ->
  (Results.changed r = true ->
     exists c, allowed_call params c
               /\ calls w' = (calls w ++ [c])%list
               /\ perform client c (etcd w) = inr (etcd w'))
  /\ (Results.changed r = false -> w' = w).
Proof.
  intros Hrun.
  destruct (run_shape _ _ _ _ _ Hrun)
    as [[-> Hch] | (_ & c & Hc & Hcalls & [(Hp & r' & [= <-] & Hch)
                                          | (e & _ & _ & [[=] | [_ [=]]])])].
  - split; [|reflexivity]. intros Ht. rewrite (Hch eq_refl r eq_refl) in Ht.
    discriminate.
  - split; [eauto|]. congruence.
Qed.

(** X8: where a leaf is created or deleted, a [ConnectionError] of the
    call is reported as the failure "Cannot connect to target."; any other
    exception of the call escapes uncaught.  The store is unchanged. *)
Theorem connection_error_reported params w c :
  Params.api_version params = "/v2" ->
  (Params.state params = present
   /\ key_absent client (etcd w) (Params.key params)
   /\ exists v, Params.value params = Some v
                /\ c = Write (Params.key params) (Some v) false)
  \/ (Params.state params = absent
      /\ (exists v, key_is_leaf client (etcd w) (Params.key params) v)
      /\ c = Delete (Params.key params) false false) ->
  forall e, perform client c (etcd w) = inl e ->
  (e = ConnectionError ->
   run client true (real params) w
   = (FailJson "Cannot connect to target.",
      {| etcd := etcd w; calls := calls w ++ [c] |}))
  /\ (e <> ConnectionError ->
      run client true (real params) w
      = (Uncaught e, {| etcd := etcd w; calls := calls w ++ [c] |})).
Proof.
  intros Hv Hcase e Hp. unfold_run.
  destruct Hcase as [(Hst & Hr & v & Hval & ->) | (Hst & (v & r & Hr & Hd & Hpv) & ->)];
    (split; intros He; crunch; try congruence; destruct e; congruence).
Qed.

(** X9: where a directory is created or a leaf overwritten, every
    exception of the call escapes uncaught, [ConnectionError] included:
    these two calls stand outside [try]. *)
Theorem unguarded_calls_raise params w c :
  Params.api_version params = "/v2" ->
  (Params.state params = directory
   /\ key_absent client (etcd w) (Params.key params)
   /\ c = Write (Params.key params) None true)
  \/ (Params.state params = present
      /\ Params.override params = true
      /\ exists prev_value value,
           key_is_leaf client (etcd w) (Params.key params) prev_value
           /\ Params.value params = Some value
           /\ prev_value <> value
           /\ c = Write (Params.key params) (Some value) false) ->
  forall e, perform client c (etcd w) = inl e ->
  run client true (real params) w
  = (Uncaught e, {| etcd := etcd w; calls := calls w ++ [c] |}).
Proof.
  intros Hv Hcase e Hp. unfold_run.
  destruct Hcase as [(Hst & Hr & ->)
                    | (Hst & Ho & pv & v & (r & Hr & Hd & Hpv) & Hval & Hne & ->)];
    crunch; try congruence; reflexivity.
Qed.

(** X10: the results of a run that exits echo what was read before any
    call: [key] is the key asked for; for a key not found there is neither
    [value] nor [data]; for a key found, [value] is the value read (none
    for a directory), and [data] carries the key, kind, value and children
    of the reply.  After an overwrite, [value] is the old value. *)
Theorem results_echo_snapshot etcd_found module w r w' :
  run client etcd_found module w = (ExitJson r, w') ->
  Results.key r = Params.key (AnsibleModule.params module)
  /\ (key_absent client (etcd w) (Params.key (AnsibleModule.params module)) ->
      Results.value r = None /\ Results.data r = None)
  /\ (forall rec,
        read client (etcd w) (Params.key (AnsibleModule.params module)) = inr rec ->
        Results.value r
        = (if EtcdResult.dir rec then None else Some (EtcdResult.value rec))
        /\ (EtcdResult.dir rec = true -> Results.dir r = true)
        /\ exists d, Results.data r = Some d
             /\ Data.key d = EtcdResult.key rec
             /\ Data.dir d = EtcdResult.dir rec
             /\ Data.value d = Results.value r
             /\ Data.children d
                = match EtcdResult._children rec with
                  | [] => None
                  | l => Some (children_dict l)
                  end).
Proof.
  destruct module as [p cm]. unfold_run.
  destruct etcd_found; cbv beta iota; [|discriminate].
  case_bool_decide as Hv; cbv beta iota; [|discriminate].
  destruct (read client (etcd w) (Params.key p)) as [e|r0] eqn:Hr.
  - destruct e; try (crunch; discriminate).
    destruct cm, (Params.state p) eqn:Hst, (Params.value p) eqn:Hval; crunch;
      try discriminate.
    all: try (destruct (perform _ _ _) as [[]|] eqn:Hp; try discriminate).
    all: intros [= <- <-]; (split; [reflexivity|]);
      (split; [intros _; split; reflexivity|]); intros rec; discriminate.
  - destruct cm, (Params.state p) eqn:Hst, (Params.value p) eqn:Hval,
      (EtcdResult.value r0) eqn:Hpv, (EtcdResult.dir r0) eqn:Hd,
      (Params.override p) eqn:Ho, (EtcdResult._children r0) eqn:Hc;
      crunch; try congruence; try discriminate.
    all: try (destruct (perform _ _ _) as [[]|] eqn:Hp; try discriminate).
    all: intros [= <- <-]; (split; [reflexivity|]);
      (split; [discriminate|]); intros rec [= <-];
      rewrite ?Hd, ?Hpv, ?Hc;
      (split; [reflexivity|]); (split; [first [reflexivity|discriminate]|]);
      eexists; repeat split; rewrite ?Hd, ?Hpv, ?Hc; reflexivity.
Qed.

(** X13: with [state=present] on a key that has a value, asking for no
    value or for that same value changes nothing, in a real run and in
    check mode. *)
Theorem present_keeps_value params w prev_value :
  Params.state params = present ->
  Params.api_version params = "/v2" ->
  observed_value client (etcd w) (Params.key params) = Some prev_value ->
  Params.value params = None \/ Params.value params = Some prev_value ->
  no_op client (real params) w /\ no_op client (check params) w.
Proof.
  intros Hst Hv Hobs Hval. unfold_run.
  destruct (read client (etcd w) (Params.key params)) as [e|r] eqn:Hr;
    [discriminate|].
  destruct Hval as [Hval|Hval]; split; crunch; try congruence; simpl; eauto.
Qed.

(** X14: with [state=absent] on a key that is not found, nothing is
    done, in a real run and in check mode. *)
Theorem absent_missing_key params w :
  Params.state params = absent ->
  Params.api_version params = "/v2" ->
  key_absent client (etcd w) (Params.key params) ->
  no_op client (real params) w /\ no_op client (check params) w.
Proof.
  intros Hst Hv Hr. unfold_run. split; crunch; try congruence; simpl; eauto.
Qed.

(** X15: the failures of a run are these six, each with its cause: the
    two guards, the leaf in the way of a directory, the missing value, the
    refused overwrite naming the value in place, and the connection
    error; a check-mode run fails by the guards only. *)
Theorem failure_messages etcd_found module w msg w' :
  run client etcd_found module w = (FailJson msg, w') ->
  let params := AnsibleModule.params module in
  (etcd_found = false /\ msg = "the python etcd module is required")
  \/ (Params.api_version params <> "/v2"
      /\ msg = "This module only support v2 of ETCD, for now")
  \/ (AnsibleModule.check_mode module = false
      /\ ((Params.state params = directory
           /\ msg = non_directory_exists (Params.key params))
          \/ (Params.state params = present /\ Params.value params = None
              /\ msg = missing_value (Params.key params))
          \/ (Params.state params = present /\ Params.override params = false
              /\ exists prev_value,
                   observed_value client (etcd w) (Params.key params)
                   = Some prev_value
                   /\ msg = overwrite_refused (Params.key params) prev_value)
          \/ (Params.state params <> directory
              /\ msg = "Cannot connect to target."))).
Proof.
  destruct module as [p cm]. unfold_run.
  destruct etcd_found; cbv beta iota; [|intros [= <- <-]; left; by split].
  case_bool_decide as Hv; cbv beta iota;
    [|intros [= <- <-]; right; left; by split].
  destruct (read client (etcd w) (Params.key p)) as [e|r0] eqn:Hr.
  - destruct e; try (crunch; discriminate).
    destruct cm, (Params.state p) eqn:Hst, (Params.value p) eqn:Hval; crunch;
      try discriminate.
    all: try (destruct (perform _ _ _) as [[]|] eqn:Hp; try discriminate).
    all: intros [= <- <-]; right; right; split; [reflexivity|].
    all: first [ left; by split
               | right; left; by repeat split
               | right; right; right; by split ].
  - destruct cm, (Params.state p) eqn:Hst, (Params.value p) eqn:Hval,
      (EtcdResult.value r0) eqn:Hpv, (EtcdResult.dir r0) eqn:Hd,
      (Params.override p) eqn:Ho, (EtcdResult._children r0) eqn:Hc;
      crunch; try congruence; try discriminate.
    all: try (destruct (perform _ _ _) as [[]|] eqn:Hp; try discriminate).
    all: intros [= <- <-]; right; right; split; [reflexivity|].
    all: first [ left; by split
               | right; left; by repeat split
               | right; right; left; split; [reflexivity|]; split; [reflexivity|];
                 eexists; split; reflexivity
               | right; right; right; by split ].
Qed.

(** X16: a check-mode run with [state=directory] exits with
    [changed=False] whatever the store holds at the key. *)
Theorem check_mode_directory_no_change params w :
  Params.state params = directory ->
  Params.api_version params = "/v2" ->
  key_readable client (etcd w) (Params.key params) ->
  no_op client (check params) w.
Proof.
  intros Hst Hv Hread. apply readable_cases in Hread. unfold_run.
  destruct Hread as [Hr | [r Hr]]; crunch; simpl; eauto.
Qed.

(** X17: the parameter [recursive] has no effect on a run: outcome,
    store and calls are the same for both of its values. *)
Theorem recursive_has_no_effect etcd_found params check_mode b w :
  run client etcd_found
    {| AnsibleModule.params := with_recursive b params;
       AnsibleModule.check_mode := check_mode |} w
  = run client etcd_found
      {| AnsibleModule.params := params;
         AnsibleModule.check_mode := check_mode |} w.
Proof.
  unfold with_recursive. unfold_run.
  cbv beta iota zeta delta
    [Params.state Params.api_version Params.key Params.value Params.override
     Params.recursive].
  reflexivity.
Qed.

(** X18: where reads reflect the accepted writes, after a real run with
    [state=present] that exits, the key holds the value asked for; with no
    value asked for, the store is as before and the key has a value. *)
Theorem present_reached params w r w' :
  ReadsReflectWrites client ->
  Params.state params = present ->
  run client true (real params) w = (ExitJson r, w') ->
  (forall v, Params.value params = Some v ->
             observed_value client (etcd w') (Params.key params) = Some v)
  /\ (Params.value params = None ->
      w' = w /\ observed_value client (etcd w) (Params.key params) <> None).
Proof.
  intros Hlaws Hst. unfold_run.
  case_bool_decide as Hv; cbv beta iota; [|discriminate].
  destruct (read client (etcd w) (Params.key params)) as [e|r0] eqn:Hr.
  - destruct e; try (crunch; discriminate).
    destruct (Params.value params) eqn:Hval; crunch; try discriminate.
    destruct (perform _ _ _) as [[]|] eqn:Hp; try discriminate.
    intros [= <- <-]. split; [|discriminate]. intros v [= <-]. simpl.
    destruct (read_written _ Hlaws _ _ _ _ Hp) as (r' & -> & Hpv). exact Hpv.
  - destruct (Params.value params) eqn:Hval,
      (EtcdResult.value r0) eqn:Hpv, (Params.override params) eqn:Ho;
      crunch; try congruence; try discriminate.
    all: try (destruct (perform _ _ _) as [[]|] eqn:Hp; try discriminate).
    all: intros [= <- <-]; split; try discriminate.
    all: try (intros v [= <-]; simpl;
              first [ destruct (read_written _ Hlaws _ _ _ _ Hp) as (r' & -> & Hpv');
                      exact Hpv'
                    | rewrite Hr; congruence ]).
    all: intros _; split; [reflexivity|discriminate].
Qed.

(** X19: where reads reflect the accepted writes, after a real run with
    [state=directory] that exits, the key is a directory and the results
    say [dir=True]. *)
Theorem directory_reached params w r w' :
  ReadsReflectWrites client ->
  Params.state params = directory ->
  run client true (real params) w = (ExitJson r, w') ->
  Results.dir r = true
  /\ exists rec, read client (etcd w') (Params.key params) = inr rec
                 /\ EtcdResult.dir rec = true.
Proof.
  intros Hlaws Hst. unfold_run.
  case_bool_decide as Hv; cbv beta iota; [|discriminate].
  destruct (read client (etcd w) (Params.key params)) as [e|r0] eqn:Hr.
  - destruct e; try (crunch; discriminate). crunch.
    destruct (perform _ _ _) as [[]|] eqn:Hp; try discriminate.
    intros [= <- <-]. split; [reflexivity|]. simpl.
    exact (read_made_directory _ Hlaws _ _ _ Hp).
  - destruct (EtcdResult.value r0) eqn:Hpv, (EtcdResult.dir r0) eqn:Hd;
      crunch; try congruence; try discriminate.
    all: try (destruct (perform _ _ _) as [[]|] eqn:Hp; try discriminate).
    all: intros [= <- <-]; split; [reflexivity|]; simpl.
    all: first [ exact (read_made_directory _ Hlaws _ _ _ Hp) | eauto ].
Qed.

(** X20: where reads reflect the accepted deletes, after a real run with
    [state=absent] that exits, no leaf is left at the key. *)
Theorem absent_reached params w r w' :
  ReadsReflectWrites client ->
  Params.state params = absent ->
  run client true (real params) w = (ExitJson r, w') ->
  forall v, ~ key_is_leaf client (etcd w') (Params.key params) v.
Proof.
  intros Hlaws Hst. unfold_run.
  case_bool_decide as Hv; cbv beta iota; [|discriminate].
  destruct (read client (etcd w) (Params.key params)) as [e|r0] eqn:Hr.
  - destruct e; try (crunch; discriminate). crunch.
    intros [= <- <-] v (rec & Hrec & _). congruence.
  - destruct (EtcdResult.value r0) eqn:Hpv, (EtcdResult.dir r0) eqn:Hd,
      (EtcdResult._children r0) eqn:Hc;
      crunch; try congruence; try discriminate.
    all: try (destruct (perform _ _ _) as [[]|] eqn:Hp; try discriminate).
    all: intros [= <- <-] v (rec & Hrec & Hd' & Hpv'); simpl in Hrec.
    all: try (rewrite (read_deleted _ Hlaws _ _ _ Hp) in Hrec; discriminate).
    all: congruence.
Qed.

End Runs.

(** *** The properties at work *)

Lemma guards_come_first_witness :
  run Mem.client true (check params_v3) (Mem.world store_leaf)
  = (FailJson "This module only support v2 of ETCD, for now", Mem.world store_leaf).
Proof.
  apply (guards_come_first Mem.client (check params_v3) (Mem.world store_leaf)).
  discriminate.
Defined.

Lemma read_error_uncaught_witness :
  run (Faulty.client false ConnectionError) true
    (check (params_of absent None false false)) (Mem.world store_leaf)
  = (Uncaught ConnectionError, Mem.world store_leaf).
Proof.
  apply (read_error_uncaught (Faulty.client false ConnectionError)
           (check (params_of absent None false false)) (Mem.world store_leaf)
           ConnectionError);
    [reflexivity | reflexivity | discriminate].
Defined.

Lemma directory_delete_never_issued_witness :
  Delete "/a" false false
  ∈ calls (run Mem.client true (real (params_of absent None false true))
             (Mem.world store_leaf)).2
  /\ Params.state (params_of absent None false true) = absent.
Proof.
  assert (Hin : Delete "/a" false false
                ∈ calls (run Mem.client true (real (params_of absent None false true))
                           (Mem.world store_leaf)).2)
    by (vm_compute; apply list_elem_of_here).
  split; [exact Hin|].
  destruct (directory_delete_never_issued Mem.client true
              (real (params_of absent None false true)) (Mem.world store_leaf)
              "/a" false false Hin) as [Hold | (_ & _ & _ & Hst)].
  - vm_compute in Hold. by apply elem_of_nil in Hold.
  - exact Hst.
Defined.

Lemma failed_run_leaves_store_witness :
  etcd (run Mem.client true (real (params_of present (Some "v") false false))
          (Mem.world store_dir)).2
  = store_dir.
Proof.
  apply (failed_run_leaves_store Mem.client true
           (real (params_of present (Some "v") false false)) (Mem.world store_dir)).
  intros r. vm_compute. discriminate.
Defined.

Lemma changed_reports_accepted_call_witness :
  exists c, allowed_call (params_of present (Some "v1") false false) c
            /\ perform Mem.client c store_empty = inr {[ "/a" := Mem.Leaf "v1" ]}.
Proof.
  destruct (changed_reports_accepted_call Mem.client true
              (params_of present (Some "v1") false false) (Mem.world store_empty)
              _ _ eq_refl) as [Hcall _].
  destruct (Hcall eq_refl) as (c & Hc & _ & Hp). exists c. split; [exact Hc|].
  exact Hp.
Defined.

Lemma connection_error_reported_witness :
  run (Faulty.client true ConnectionError) true
    (real (params_of present (Some "v1") false false)) (Mem.world store_empty)
  = (FailJson "Cannot connect to target.",
     {| etcd := store_empty; calls := [Write "/a" (Some "v1") false] |})
  /\ run (Faulty.client true (EtcdException "Raft Internal Error")) true
       (real (params_of absent None false false)) (Mem.world store_leaf)
     = (Uncaught (EtcdException "Raft Internal Error"),
        {| etcd := store_leaf; calls := [Delete "/a" false false] |}).
Proof.
  split.
  - destruct (connection_error_reported (Faulty.client true ConnectionError)
                (params_of present (Some "v1") false false) (Mem.world store_empty)
                (Write "/a" (Some "v1") false) eq_refl) with ConnectionError
      as [Hcaught _]; [|reflexivity|exact (Hcaught eq_refl)].
    left. split; [reflexivity|]. split; [reflexivity|].
    exists "v1". split; reflexivity.
  - destruct (connection_error_reported
                (Faulty.client true (EtcdException "Raft Internal Error"))
                (params_of absent None false false) (Mem.world store_leaf)
                (Delete "/a" false false) eq_refl)
      with (EtcdException "Raft Internal Error")
      as [_ Hother]; [|reflexivity|apply Hother; discriminate].
    right. split; [reflexivity|]. split; [|reflexivity].
    exists "v1". shown.
Defined.

Lemma unguarded_calls_raise_witness :
  run (Faulty.client true ConnectionError) true
    (real (params_of present (Some "v2") true false)) (Mem.world store_leaf)
  = (Uncaught ConnectionError,
     {| etcd := store_leaf; calls := [Write "/a" (Some "v2") false] |})
  /\ run (Faulty.client true ConnectionError) true
       (real (params_of directory None false false)) (Mem.world store_empty)
     = (Uncaught ConnectionError,
        {| etcd := store_empty; calls := [Write "/a" None true] |}).
Proof.
  split.
  - apply (unguarded_calls_raise (Faulty.client true ConnectionError)
             (params_of present (Some "v2") true false) (Mem.world store_leaf)
             (Write "/a" (Some "v2") false) eq_refl); [|reflexivity].
    right. split; [reflexivity|]. split; [reflexivity|].
    exists "v1", "v2". split; [shown|]. split; [reflexivity|].
    split; [discriminate|reflexivity].
  - apply (unguarded_calls_raise (Faulty.client true ConnectionError)
             (params_of directory None false false) (Mem.world store_empty)
             (Write "/a" None true) eq_refl); [|reflexivity].
    left. split; [reflexivity|]. split; reflexivity.
Defined.

Lemma results_echo_snapshot_witness :
  exists r w',
    run Mem.client true (real (params_of present (Some "v2") true false))
      (Mem.world store_leaf) = (ExitJson r, w')
    /\ Mem.read (etcd w') "/a"
       = inr {| EtcdResult.key := "/a"; EtcdResult.value := Some "v2";
                EtcdResult.dir := false; EtcdResult._children := [] |}
    /\ Results.changed r = true
    /\ Results.value r = Some (Some "v1").
Proof.
  eexists _, _. split; [reflexivity|]. split; [reflexivity|]. split; [reflexivity|].
  destruct (results_echo_snapshot Mem.client true
              (real (params_of present (Some "v2") true false)) (Mem.world store_leaf)
              _ _ eq_refl) as (_ & _ & Hrec).
  destruct (Hrec _ eq_refl) as (Hval & _). exact Hval.
Defined.

Lemma children_dict_distinct_witness :
  children_dict
    [child_b; {| Child.key := "/a/c"; Child.value := None; Child.dir := true |}]
  !! "/a/b" = Some child_b.
Proof.
  apply (children_dict_distinct
           [child_b; {| Child.key := "/a/c"; Child.value := None; Child.dir := true |}]
           child_b).
  - simpl. apply NoDup_cons. split; [|apply NoDup_singleton].
    rewrite list_elem_of_singleton. discriminate.
  - apply list_elem_of_here.
Defined.

Lemma present_keeps_value_witness :
  (no_op Mem.client (real (params_of present None false false)) (Mem.world store_leaf)
   /\ no_op Mem.client (check (params_of present None false false))
        (Mem.world store_leaf))
  /\ (no_op Mem.client (real (params_of present (Some "v1") false false))
        (Mem.world store_leaf)
      /\ no_op Mem.client (check (params_of present (Some "v1") false false))
           (Mem.world store_leaf)).
Proof.
  split.
  - apply (present_keeps_value Mem.client (params_of present None false false)
             (Mem.world store_leaf) "v1" eq_refl eq_refl eq_refl).
    left. reflexivity.
  - apply (present_keeps_value Mem.client (params_of present (Some "v1") false false)
             (Mem.world store_leaf) "v1" eq_refl eq_refl eq_refl).
    right. reflexivity.
Defined.

Lemma absent_missing_key_witness :
  no_op Mem.client (real (params_of absent None false false)) (Mem.world store_empty)
  /\ no_op Mem.client (check (params_of absent None false false))
       (Mem.world store_empty).
Proof.
  apply (absent_missing_key Mem.client (params_of absent None false false)
           (Mem.world store_empty) eq_refl eq_refl eq_refl).
Defined.

Lemma failure_messages_witness :
  exists prev_value,
    observed_value Mem.client store_leaf "/a" = Some prev_value
    /\ overwrite_refused "/a" "v1" = overwrite_refused "/a" prev_value.
Proof.
  destruct (failure_messages Mem.client true
              (real (params_of present (Some "v2") false false)) (Mem.world store_leaf)
              (overwrite_refused "/a" "v1") (Mem.world store_leaf) eq_refl)
    as [[Hf _] | [[Hv _] | (_ & [[Hst _] | [(_ & Hval & _) | [(_ & _ & Hpv) | [_ Hm]]]])]].
  - discriminate Hf.
  - by destruct Hv.
  - discriminate Hst.
  - discriminate Hval.
  - exact Hpv.
  - discriminate Hm.
Defined.

Lemma check_mode_directory_no_change_witness :
  no_op Mem.client (check (params_of directory None false false))
    (Mem.world store_empty)
  /\ no_op Mem.client (check (params_of directory None false false))
       (Mem.world store_leaf).
Proof.
  split.
  - apply (check_mode_directory_no_change Mem.client
             (params_of directory None false false) (Mem.world store_empty)
             eq_refl eq_refl (Mem_key_readable _ _)).
  - apply (check_mode_directory_no_change Mem.client
             (params_of directory None false false) (Mem.world store_leaf)
             eq_refl eq_refl (Mem_key_readable _ _)).
Defined.

Lemma present_reached_witness :
  observed_value Mem.client
    (etcd (run Mem.client true (real (params_of present (Some "v2") true false))
             (Mem.world store_leaf)).2) "/a"
  = Some "v2".
Proof.
  destruct (present_reached Mem.client (params_of present (Some "v2") true false)
              (Mem.world store_leaf) _ _ Mem_reads_reflect_writes eq_refl eq_refl)
    as [Hval _].
  apply (Hval "v2" eq_refl).
Defined.

Lemma directory_reached_witness :
  exists rec,
    Mem.read
      (etcd (run Mem.client true (real (params_of directory None false false))
               (Mem.world store_empty)).2) "/a" = inr rec
    /\ EtcdResult.dir rec = true.
Proof.
  destruct (directory_reached Mem.client (params_of directory None false false)
              (Mem.world store_empty) _ _ Mem_reads_reflect_writes eq_refl eq_refl)
    as [_ Hdir].
  exact Hdir.
Defined.

Lemma absent_reached_witness :
  ~ key_is_leaf Mem.client
      (etcd (run Mem.client true (real (params_of absent None false false))
               (Mem.world store_leaf)).2) "/a" "v1".
Proof.
  apply (absent_reached Mem.client (params_of absent None false false)
           (Mem.world store_leaf) _ _ Mem_reads_reflect_writes eq_refl eq_refl).
Defined.
